(** * scripts/validate_local.py: a command-line JSON Schema check

    The script takes two paths, reads both files as UTF-8 text, decodes
    them with [json.loads], hands the two values to [jsonschema.validate]
    and reports the verdict on standard output and in the exit status.

    The embedding follows the script statement by statement.  Python's
    exceptions, [print], [sys.exit], [Path.read_text] and the top level of
    the interpreter are modelled as a small state-and-exception monad over
    a [world] (the files on disk, the text written to standard output and
    a chronological log of the library calls made).  The two external
    libraries, [json.loads] and [jsonschema.validate], are not part of the
    repository: they are Section variables, so every theorem holds for any
    decoder and any validator.  Where a concrete text decides a question,
    the scanner of [json.loads] is followed in [Json]. *)

From Stdlib Require Import ZArith Lia.
From stdpp Require Import base strings list gmap.

Local Open Scope string_scope.

(** ** Exceptions *)

(** The exception classes that can reach the script: the [OSError] family
    and [UnicodeDecodeError] from [Path.read_text], [JSONDecodeError] and
    [RecursionError] from [json.loads], [ValidationError] and [SchemaError]
    from [jsonschema], [IndexError] from list indexing.  [OtherError] stands
    for any further class; none of them derives from [ValidationError]. *)
Inductive exc_class : Type :=
| FileNotFoundError
| PermissionError
| IsADirectoryError
| UnicodeDecodeError
| JSONDecodeError
| RecursionError
| ValidationError
| SchemaError
| IndexError
| OtherError (name : string).

(** An exception object derived from [Exception]: its class and its
    [message] attribute. *)
Record error : Type := Err { err_class : exc_class; message : string }.

(** What a [raise] can carry.  [SystemExit] derives from [BaseException]
    only, so no [except ValidationError] clause ever matches it. *)
Inductive exn : Type :=
| SystemExit (code : Z)
| Exception (e : error).

(** [isinstance(e, ValidationError)], the test behind
    [except ValidationError as e]. *)
Definition is_ValidationError (e : error) : bool :=
  match err_class e with
  | ValidationError => true
  | _ => false
  end.

(** ** The world of one process *)

(** What a path may name.  A path absent from the file map names nothing. *)
Inductive node : Type :=
| RegularFile (text : string)   (* readable, content decodes as UTF-8 to [text] *)
| Undecodable                   (* readable, content is not UTF-8 *)
| Directory
| Unreadable.                   (* exists, permission denied *)

(** The library calls the script makes, in the order it makes them. *)
Inductive call : Type :=
| ReadText (path : string)
| Loads (text : string)
| Validate
| Print (text : string).

Record world : Type := World {
  files : gmap string node;
  stdout : string;
  calls : list call
}.

Definition record (c : call) (w : world) : world :=
  {| files := files w; stdout := stdout w; calls := calls w ++ [c] |}.

(** ** Computations that may raise *)

Inductive result (A : Type) : Type :=
| Return (a : A)
| Raise (x : exn).
Arguments Return {A} a.
Arguments Raise {A} x.

Definition py (A : Type) : Type := world -> result A * world.

Definition ret {A : Type} (a : A) : py A := fun w => (Return a, w).

Definition raise {A : Type} (x : exn) : py A := fun w => (Raise x, w).

Definition bind {A B : Type} (m : py A) (k : A -> py B) : py B :=
  fun w =>
    match m w with
    | (Return a, w') => k a w'
    | (Raise x, w') => (Raise x, w')
    end.

Declare Scope py_scope.
Delimit Scope py_scope with py.
Bind Scope py_scope with py.
Notation "x <- m ;; k" := (bind m (fun x => k))
  (at level 100, m at level 99, right associativity) : py_scope.
Notation "m ;; k" := (bind m (fun _ => k))
  (at level 100, right associativity) : py_scope.
Local Open Scope py_scope.

(** [try: body  except cls as e: handler e].  An exception of the body
    that the clause matches is handed to the handler, which runs in the
    world the body left behind; anything else, [SystemExit] included,
    propagates. *)
Definition try_except {A : Type} (body : py A)
    (clause : error -> bool) (handler : error -> py A) : py A :=
  fun w =>
    match body w with
    | (Raise (Exception e), w') =>
        if clause e then handler e w' else (Raise (Exception e), w')
    | other => other
    end.

(** ** Built-ins and standard library *)

Definition nl : string := String (Ascii.ascii_of_nat 10) EmptyString.

(** [print(a, b, ...)]: the arguments separated by one space, then a newline,
    appended to standard output. *)
Definition print (args : list string) : py unit :=
  fun w =>
    let text := String.concat " " args +:+ nl in
    (Return tt,
     {| files := files w; stdout := stdout w +:+ text;
        calls := calls w ++ [Print text] |}).

(** [sys.exit(code)] raises [SystemExit(code)]. *)
Definition sys_exit {A : Type} (code : Z) : py A := raise (SystemExit code).

(** [l[i]] on a list: [IndexError] out of range. *)
Definition item (l : list string) (i : nat) : py string :=
  match l !! i with
  | Some x => ret x
  | None => raise (Exception (Err IndexError "list index out of range"))
  end.

(** [Path(s)] only wraps the string; it touches no file. *)
Definition Path (s : string) : string := s.

(** A call into a library: it is logged, and it either returns a value or
    raises an [Exception]. *)
Definition library_call {A : Type} (c : call) (r : error + A) : py A :=
  fun w =>
    match r with
    | inr a => (Return a, record c w)
    | inl e => (Raise (Exception e), record c w)
    end.

(** What reading the whole of a node as UTF-8 text gives: the text, or
    the error the operating system or the decoder reports. *)
Definition read_node (n : option node) : error + string :=
  match n with
  | Some (RegularFile text) => inr text
  | Some Undecodable => inl (Err UnicodeDecodeError "invalid start byte")
  | Some Directory => inl (Err IsADirectoryError "Is a directory")
  | Some Unreadable => inl (Err PermissionError "Permission denied")
  | None => inl (Err FileNotFoundError "No such file or directory")
  end.

(** [p.read_text(encoding='utf-8')]. *)
Definition read_text (p : string) : py string :=
  fun w => library_call (ReadText p) (read_node (files w !! p)) w.

(** ** The script *)

(** What the outside sees of one run. *)
Record process : Type := Process {
  exit_status : Z;
  output : string;               (* everything written to standard output *)
  traceback : option error;      (* the unhandled exception reported on stderr *)
  trace : list call;
  files_after : gmap string node
}.

Definition usage : string := "Usage: validate_local.py <json-file> <schema-file>".

Section Script.

(** Decoded JSON values, [json.loads] and [jsonschema.validate]. *)
Variable json : Type.
Variable json_loads : string -> error + json.
Variable validate : json -> json -> error + unit.

(** The module body, lines 9 to 21; [argv] is [sys.argv]. *)
Definition validate_local (argv : list string) : py unit :=
  (if (length argv <? 3)%nat then
     print [usage] ;;
     sys_exit 2
   else ret tt) ;;
  a1 <- item argv 1 ;;
  let jf := Path a1 in
  a2 <- item argv 2 ;;
  let sf := Path a2 in
  dtext <- read_text jf ;;
  data <- library_call (Loads dtext) (json_loads dtext) ;;
  stext <- read_text sf ;;
  schema <- library_call (Loads stext) (json_loads stext) ;;
  try_except
    (library_call Validate (validate data schema) ;;
     print ["Validation OK"])
    is_ValidationError
    (fun e =>
       print ["Validation FAILED:"; message e] ;;
       sys_exit 1).

(** ** The interpreter's top level *)

(** CPython's exit status: 0 when the module body runs to its end, the
    code of a [SystemExit], and 1 after reporting an unhandled
    exception. *)
Definition status_of (r : result unit) : Z :=
  match r with
  | Return _ => 0%Z
  | Raise (SystemExit code) => code
  | Raise (Exception _) => 1%Z
  end.

Definition traceback_of (r : result unit) : option error :=
  match r with
  | Raise (Exception e) => Some e
  | _ => None
  end.

(** [python3 scripts/validate_local.py ...] started on the files [fs]:
    standard output starts empty. *)
Definition python3 (argv : list string) (fs : gmap string node) : process :=
  let '(r, w) := validate_local argv (World fs "" []) in
  {| exit_status := status_of r;
     output := stdout w;
     traceback := traceback_of r;
     trace := calls w;
     files_after := files w |}.

End Script.


(** ** Reading a trace *)

(** The paths read, and the texts printed, in order. *)
Definition reads (log : list call) : list string :=
  omap (fun c => match c with ReadText p => Some p | _ => None end) log.

Definition prints (log : list call) : list string :=
  omap (fun c => match c with Print t => Some t | _ => None end) log.


(** How many times [validate] was called. *)
Definition validations (log : list call) : nat :=
  length (omap (fun c => match c with Validate => Some tt | _ => None end) log).

(** The path names a file whose bytes can be read. *)
Definition readable_file (fs : gmap string node) (p : string) : bool :=
  match fs !! p with
  | Some (RegularFile _) | Some Undecodable => true
  | _ => false
  end.

(** ** JSON texts and Python's decoder

    [json.loads] belongs to Python's standard library.  Its scanner is
    followed here as a recogniser: which texts it decodes, not the values
    it builds.  Texts are strings of characters below code point 256.
    With [constants] set the scanner takes [NaN], [Infinity] and
    [-Infinity] for values, as [json.loads] does by default; without it
    the texts taken are those of the JSON grammar of RFC 8259. *)
Module Json.

Import Stdlib.Strings.Ascii.

Definition dquote : Ascii.ascii := Ascii.ascii_of_nat 34.

(** [WHITESPACE]: space, tab, line feed, carriage return. *)
Definition is_ws (c : Ascii.ascii) : bool :=
  Ascii.eqb c " "%char || Ascii.eqb c (Ascii.ascii_of_nat 9)
  || Ascii.eqb c (Ascii.ascii_of_nat 10) || Ascii.eqb c (Ascii.ascii_of_nat 13).

Fixpoint skip_ws (s : string) : string :=
  match s with
  | String c rest => if is_ws c then skip_ws rest else s
  | EmptyString => s
  end.

Definition is_digit (c : Ascii.ascii) : bool :=
  (48 <=? Ascii.nat_of_ascii c)%nat && (Ascii.nat_of_ascii c <=? 57)%nat.

Definition is_hex (c : Ascii.ascii) : bool :=
  is_digit c
  || ((65 <=? Ascii.nat_of_ascii c)%nat && (Ascii.nat_of_ascii c <=? 70)%nat)
  || ((97 <=? Ascii.nat_of_ascii c)%nat && (Ascii.nat_of_ascii c <=? 102)%nat).

Fixpoint skip_digits (s : string) : string :=
  match s with
  | String c rest => if is_digit c then skip_digits rest else s
  | EmptyString => s
  end.

(** [s[idx:idx+len(p)] == p]: what follows [p] when [s] starts with it. *)
Fixpoint strip_prefix (p s : string) : option string :=
  match p with
  | EmptyString => Some s
  | String a p' =>
      match s with
      | String b s' => if Ascii.eqb a b then strip_prefix p' s' else None
      | EmptyString => None
      end
  end.

(** [scanstring] with [strict=True], entered after the opening quote:
    the text after the closing quote.  A character below 32 is refused;
    a backslash is followed by one of the eight short escapes or by [u]
    and four hexadecimal digits. *)
Fixpoint scanstring (s : string) : option string :=
  match s with
  | EmptyString => None
  | String c rest =>
      if Ascii.eqb c dquote then Some rest
      else if Ascii.eqb c "\"%char then
        match rest with
        | String esc rest' =>
            if Ascii.eqb esc "u"%char then
              match rest' with
              | String h1 (String h2 (String h3 (String h4 rest''))) =>
                  if is_hex h1 && is_hex h2 && is_hex h3 && is_hex h4
                  then scanstring rest'' else None
              | _ => None
              end
            else if Ascii.eqb esc dquote || Ascii.eqb esc "\"%char
                    || Ascii.eqb esc "/"%char || Ascii.eqb esc "b"%char
                    || Ascii.eqb esc "f"%char || Ascii.eqb esc "n"%char
                    || Ascii.eqb esc "r"%char || Ascii.eqb esc "t"%char
            then scanstring rest' else None
        | EmptyString => None
        end
      else if (Ascii.nat_of_ascii c <? 32)%nat then None
      else scanstring rest
  end.

(** The optional groups of [NUMBER_RE]: a fraction is a dot and at least
    one digit, an exponent is [e] or [E], an optional sign and at least
    one digit; a group that does not match is left in the text. *)
Definition skip_frac (s : string) : string :=
  match s with
  | String "."%char (String d rest) => if is_digit d then skip_digits rest else s
  | _ => s
  end.

Definition skip_exp (s : string) : string :=
  match s with
  | String e rest =>
      if Ascii.eqb e "e"%char || Ascii.eqb e "E"%char then
        let unsigned :=
          match rest with
          | String sign rest' =>
              if Ascii.eqb sign "-"%char || Ascii.eqb sign "+"%char then rest' else rest
          | EmptyString => rest
          end in
        match unsigned with
        | String d rest' => if is_digit d then skip_digits rest' else s
        | EmptyString => s
        end
      else s
  | EmptyString => s
  end.

(** [NUMBER_RE.match]: an optional minus, then [0] or a digit from 1 to 9
    and further digits, then the optional groups. *)
Definition match_number (s : string) : option string :=
  let unsigned :=
    match s with
    | String "-"%char rest => rest
    | _ => s
    end in
  match unsigned with
  | String d rest =>
      if Ascii.eqb d "0"%char then Some (skip_exp (skip_frac rest))
      else if is_digit d then Some (skip_exp (skip_frac (skip_digits rest)))
      else None
  | EmptyString => None
  end.

(** [_scan_once], [JSONObject] and [JSONArray], each returning the text
    after the value.  [JSONObject] and [JSONArray] are entered after the
    opening bracket; [object_members] and [array_items] are their loops,
    the first entered after the opening quote of a key.  Every call uses
    one unit of [fuel]. *)
Fixpoint scan_once (constants : bool) (fuel : nat) (s : string)
    {struct fuel} : option string :=
  match fuel with
  | 0 => None
  | S fuel =>
      match s with
      | EmptyString => None
      | String c rest =>
          if Ascii.eqb c dquote then scanstring rest
          else if Ascii.eqb c "{"%char then JSONObject constants fuel rest
          else if Ascii.eqb c "["%char then JSONArray constants fuel rest
          else
            match strip_prefix "null" s with
            | Some after => Some after
            | None =>
            match strip_prefix "true" s with
            | Some after => Some after
            | None =>
            match strip_prefix "false" s with
            | Some after => Some after
            | None =>
            match match_number s with
            | Some after => Some after
            | None =>
                if constants then
                  match strip_prefix "NaN" s with
                  | Some after => Some after
                  | None =>
                  match strip_prefix "Infinity" s with
                  | Some after => Some after
                  | None => strip_prefix "-Infinity" s
                  end
                  end
                else None
            end
            end
            end
            end
      end
  end

with JSONObject (constants : bool) (fuel : nat) (s : string)
    {struct fuel} : option string :=
  match fuel with
  | 0 => None
  | S fuel =>
      match skip_ws s with
      | EmptyString => None
      | String c rest =>
          if Ascii.eqb c "}"%char then Some rest
          else if Ascii.eqb c dquote then object_members constants fuel rest
          else None
      end
  end

with object_members (constants : bool) (fuel : nat) (s : string)
    {struct fuel} : option string :=
  match fuel with
  | 0 => None
  | S fuel =>
      match scanstring s with
      | None => None
      | Some after_key =>
          match skip_ws after_key with
          | String ":"%char after_colon =>
              match scan_once constants fuel (skip_ws after_colon) with
              | None => None
              | Some after_value =>
                  match skip_ws after_value with
                  | String "}"%char rest => Some rest
                  | String ","%char rest =>
                      match skip_ws rest with
                      | String c rest' =>
                          if Ascii.eqb c dquote
                          then object_members constants fuel rest'
                          else None
                      | EmptyString => None
                      end
                  | _ => None
                  end
              end
          | _ => None
          end
      end
  end

with JSONArray (constants : bool) (fuel : nat) (s : string)
    {struct fuel} : option string :=
  match fuel with
  | 0 => None
  | S fuel =>
      match skip_ws s with
      | String "]"%char rest => Some rest
      | items => array_items constants fuel items
      end
  end

with array_items (constants : bool) (fuel : nat) (s : string)
    {struct fuel} : option string :=
  match fuel with
  | 0 => None
  | S fuel =>
      match scan_once constants fuel s with
      | None => None
      | Some after_value =>
          match skip_ws after_value with
          | String "]"%char rest => Some rest
          | String ","%char rest => array_items constants fuel (skip_ws rest)
          | _ => None
          end
      end
  end.

(** [JSONDecoder.decode]: white space, one value, white space, and
    nothing more.  No call chain is longer than the fuel given. *)
Definition decodes (constants : bool) (text : string) : bool :=
  match scan_once constants (4 * String.length text + 4) (skip_ws text) with
  | Some rest =>
      match skip_ws rest with
      | EmptyString => true
      | String _ _ => false
      end
  | None => false
  end.

(** A syntactically valid JSON text. *)
Definition rfc8259 (text : string) : bool := decodes false text.

(** [json.loads(text)] with its defaults.  A decoded value is named by a
    text that decodes to it; every refusal is a [JSONDecodeError], whose
    message is not modelled. *)
Definition json_loads (text : string) : error + string :=
  if decodes true text then inr text
  else inl (Err JSONDecodeError "Expecting value").

End Json.

(** ** Stand-ins for the two libraries

    A decoder and a validator small enough to run inside Rocq, used to
    exercise the theorems on concrete runs.  A decoded value is the text
    itself; only the empty text fails to decode.  The schema [{}] accepts
    everything, the schema [[]] is not a schema, and any other schema
    accepts exactly the document equal to it. *)
Module Standin.

Definition json : Type := string.

Definition json_loads (text : string) : error + json :=
  if String.eqb text "" then inl (Err JSONDecodeError "Expecting value")
  else inr text.

Definition validate (instance schema : json) : error + unit :=
  if String.eqb schema "{}" then inr tt
  else if String.eqb schema "[]" then inl (Err SchemaError "[] is not of type 'object', 'boolean'")
  else if String.eqb instance schema then inr tt
  else inl (Err ValidationError (instance +:+ " is not valid under the schema")).

Definition run : list string -> gmap string node -> process :=
  python3 json json_loads validate.


(** A small disk: a document, three schemas and a file that is not JSON. *)
Definition disk : gmap string node :=
  <["doc.json" := RegularFile "[1]"]>
  (<["any.json" := RegularFile "{}"]>
  (<["same.json" := RegularFile "[1]"]>
  (<["strict.json" := RegularFile "[2]"]>
  (<["bad-schema.json" := RegularFile "[]"]>
  (<["empty.json" := RegularFile ""]> ∅))))).

End Standin.

(** * Properties of the script *)

Section Properties.

Variable json : Type.
Variable json_loads : string -> error + json.
Variable validate : json -> json -> error + unit.

Abbreviation run := (python3 json json_loads validate).

(** ** The runs, case by case *)

(** With fewer than two arguments the guard on line 9 fires. *)
Lemma run_usage (argv : list string) (fs : gmap string node) :
  length argv < 3 ->
  run argv fs = Process 2 (usage +:+ nl) None [Print (usage +:+ nl)] fs.
Proof.
  intros Hlen. unfold python3, validate_local.
  destruct (Nat.ltb_spec (length argv) 3) as [_ | Hge]; [reflexivity | lia].
Qed.

(** With two paths the run is a straight line, left at the first call
    that raises. *)
Lemma run_two_paths (prog jf sf : string) (extra : list string)
    (fs : gmap string node) :
  run (prog :: jf :: sf :: extra) fs =
  match read_node (fs !! jf) with
  | inl e => Process 1 "" (Some e) [ReadText jf] fs
  | inr dtext =>
    match json_loads dtext with
    | inl e => Process 1 "" (Some e) [ReadText jf; Loads dtext] fs
    | inr data =>
      match read_node (fs !! sf) with
      | inl e =>
          Process 1 "" (Some e) [ReadText jf; Loads dtext; ReadText sf] fs
      | inr stext =>
        match json_loads stext with
        | inl e =>
            Process 1 "" (Some e)
              [ReadText jf; Loads dtext; ReadText sf; Loads stext] fs
        | inr schema =>
          match validate data schema with
          | inr _ =>
              Process 0 ("Validation OK" +:+ nl) None
                [ReadText jf; Loads dtext; ReadText sf; Loads stext;
                 Validate; Print ("Validation OK" +:+ nl)] fs
          | inl e =>
              if is_ValidationError e then
                Process 1 ("Validation FAILED: " +:+ message e +:+ nl) None
                  [ReadText jf; Loads dtext; ReadText sf; Loads stext;
                   Validate;
                   Print ("Validation FAILED: " +:+ message e +:+ nl)] fs
              else
                Process 1 "" (Some e)
                  [ReadText jf; Loads dtext; ReadText sf; Loads stext;
                   Validate] fs
          end
        end
      end
    end
  end.
Proof.
  unfold python3, validate_local, bind, read_text, library_call, try_except, Path.
  cbn [length Nat.ltb Nat.leb item lookup list_lookup ret Path files record].
  destruct (read_node (fs !! jf)) as [e | dtext]; [reflexivity |].
  destruct (json_loads dtext) as [e | data]; [reflexivity |].
  cbn [files record].
  destruct (read_node (fs !! sf)) as [e | stext]; [reflexivity |].
  destruct (json_loads stext) as [e | schema]; [reflexivity |].
  destruct (validate data schema) as [e | []]; [| reflexivity].
  destruct (is_ValidationError e); reflexivity.
Qed.

(** No run touches the files. *)
Lemma run_keeps_files (argv : list string) (fs : gmap string node) :
  files_after (run argv fs) = fs.
Proof.
  destruct (Nat.lt_ge_cases (length argv) 3) as [Hlt | Hge].
  - rewrite (run_usage argv fs Hlt). reflexivity.
  - destruct argv as [| prog [| jf [| sf extra]]]; simpl in Hge; try lia.
    rewrite run_two_paths.
    repeat match goal with
           | |- context [match ?x with _ => _ end] => destruct x
           end; reflexivity.
Qed.

(** ** The verdicts *)

(** C1. When both files hold text that [json.loads] decodes and
    [validate] accepts the decoded document under the decoded schema, the
    run prints exactly the line [Validation OK] and exits with status 0. *)
Theorem validation_ok_exit_0 (prog jf sf dtext stext : string)
    (data schema : json) (fs : gmap string node) :
  fs !! jf = Some (RegularFile dtext) ->
  fs !! sf = Some (RegularFile stext) ->
  json_loads dtext = inr data ->
  json_loads stext = inr schema ->
  validate data schema = inr tt ->
  output (run [prog; jf; sf] fs) = "Validation OK" +:+ nl
  /\ prints (trace (run [prog; jf; sf] fs)) = ["Validation OK" +:+ nl]
  /\ exit_status (run [prog; jf; sf] fs) = 0%Z.
Proof.
  intros Hjf Hsf Hd Hs Hv.
  rewrite run_two_paths, Hjf, Hsf. cbn [read_node].
  rewrite Hd, Hs, Hv. repeat split.
Qed.

(** C2. When both files decode and [validate] raises a [ValidationError]
    with message [m], the run prints the single line
    [Validation FAILED: ] followed by [m] and exits with status 1. *)
Theorem validation_failed_exit_1 (prog jf sf dtext stext m : string)
    (data schema : json) (fs : gmap string node) :
  fs !! jf = Some (RegularFile dtext) ->
  fs !! sf = Some (RegularFile stext) ->
  json_loads dtext = inr data ->
  json_loads stext = inr schema ->
  validate data schema = inl (Err ValidationError m) ->
  output (run [prog; jf; sf] fs) = "Validation FAILED: " +:+ m +:+ nl
  /\ prints (trace (run [prog; jf; sf] fs))
     = ["Validation FAILED: " +:+ m +:+ nl]
  /\ exit_status (run [prog; jf; sf] fs) = 1%Z
  /\ traceback (run [prog; jf; sf] fs) = None.
Proof.
  intros Hjf Hsf Hd Hs Hv.
  rewrite run_two_paths, Hjf, Hsf. cbn [read_node].
  rewrite Hd, Hs, Hv. repeat split.
Qed.

(** C3. With fewer than two arguments (only the program name, or one
    argument after it), whatever the files, the run prints exactly the
    usage line, exits with status 2 and reads no file. *)
Theorem too_few_arguments_usage (argv : list string) (fs : gmap string node) :
  length argv < 3 ->
  output (run argv fs) = usage +:+ nl
  /\ exit_status (run argv fs) = 2%Z
  /\ trace (run argv fs) = [Print (usage +:+ nl)]
  /\ reads (trace (run argv fs)) = [].
Proof.
  intros Hlen. rewrite (run_usage argv fs Hlen). repeat split.
Qed.

(** C4, amended. With two arguments whose first path does not name a
    readable file, the run prints nothing, so not [Validation OK], and
    does not exit with status 0: the error of the read is left unhandled
    and the interpreter ends the process with status 1, the number a
    reported validation failure also gets. *)
Theorem missing_document_unhandled (prog jf sf : string)
    (fs : gmap string node) :
  readable_file fs jf = false ->
  output (run [prog; jf; sf] fs) = ""
  /\ exit_status (run [prog; jf; sf] fs) <> 0%Z
  /\ exit_status (run [prog; jf; sf] fs) = 1%Z
  /\ is_Some (traceback (run [prog; jf; sf] fs)).
Proof.
  unfold readable_file. intros Hjf. rewrite run_two_paths.
  destruct (fs !! jf) as [[t | | |] |]; try discriminate Hjf;
    cbn [read_node]; (repeat split; [discriminate | eexists; reflexivity]).
Qed.

(** C5, amended. With two arguments or more, when the text of either
    file is refused by [json.loads], the run ends in an unhandled
    exception: nothing is printed, so no success is reported, and the exit
    status is not 0. *)
Theorem malformed_json_unhandled (prog jf sf : string)
    (extra : list string) (fs : gmap string node) :
  (exists t e, fs !! jf = Some (RegularFile t) /\ json_loads t = inl e)
  \/ (exists t e, fs !! sf = Some (RegularFile t) /\ json_loads t = inl e) ->
  output (run (prog :: jf :: sf :: extra) fs) = ""
  /\ prints (trace (run (prog :: jf :: sf :: extra) fs)) = []
  /\ is_Some (traceback (run (prog :: jf :: sf :: extra) fs))
  /\ exit_status (run (prog :: jf :: sf :: extra) fs) <> 0%Z.
Proof.
  assert (Hcrash : forall e log,
    let p := Process 1 "" (Some e) log fs in
    prints log = [] ->
    output p = "" /\ prints (trace p) = [] /\ is_Some (traceback p)
    /\ exit_status p <> 0%Z).
  { intros e log p Hlog. repeat split; [exact Hlog | eexists; reflexivity | discriminate]. }
  intros [(t & e & Hf & Hl) | (t & e & Hf & Hl)]; rewrite run_two_paths.
  - rewrite Hf. cbn [read_node]. rewrite Hl. apply Hcrash. reflexivity.
  - destruct (read_node (fs !! jf)) as [e1 | dtext]; [apply Hcrash; reflexivity |].
    destruct (json_loads dtext) as [e2 | data]; [apply Hcrash; reflexivity |].
    rewrite Hf. cbn [read_node]. rewrite Hl. apply Hcrash. reflexivity.
Qed.

(** C6. Once past the argument guard, the first call is the read of the
    document file and the next its decoding; the schema file is read only
    after both, and its decoding follows its read.  If the document fails
    to read or to decode, the trace ends there: the schema file is never
    opened. *)
Theorem document_before_schema (prog jf sf : string) (extra : list string)
    (fs : gmap string node) :
  let log := trace (run (prog :: jf :: sf :: extra) fs) in
  match read_node (fs !! jf) with
  | inl _ => log = [ReadText jf]
  | inr dtext =>
    match json_loads dtext with
    | inl _ => log = [ReadText jf; Loads dtext]
    | inr _ =>
      match read_node (fs !! sf) with
      | inl _ => log = [ReadText jf; Loads dtext; ReadText sf]
      | inr stext =>
          exists rest,
            log = ([ReadText jf; Loads dtext; ReadText sf; Loads stext] ++ rest)%list
            /\ reads rest = []
      end
    end
  end.
Proof.
  intros log. subst log. rewrite run_two_paths.
  destruct (read_node (fs !! jf)) as [e | dtext]; [reflexivity |].
  destruct (json_loads dtext) as [e | data]; [reflexivity |].
  destruct (read_node (fs !! sf)) as [e | stext]; [reflexivity |].
  destruct (json_loads stext) as [e | schema]; [exists []; split; reflexivity |].
  destruct (validate data schema) as [e | u].
  - destruct (is_ValidationError e); eexists; split; reflexivity.
  - eexists; split; reflexivity.
Qed.

(** C8. Arguments after the second path change nothing: the whole
    outcome (output, exit status, traceback, trace, files) is that of
    the run with the first two arguments only. *)
Theorem extra_arguments_ignored (prog jf sf : string) (extra : list string)
    (fs : gmap string node) :
  run (prog :: jf :: sf :: extra) fs = run [prog; jf; sf] fs.
Proof. rewrite !run_two_paths. reflexivity. Qed.


(** C10. When both files decode and [validate] raises an exception that
    is not a [ValidationError], such as a [SchemaError], the handler does
    not take it: nothing is printed, neither [Validation OK] nor a
    [Validation FAILED:] line, and the exception is the unhandled one. *)
Theorem other_error_propagates (prog jf sf dtext stext : string)
    (data schema : json) (e : error) (extra : list string)
    (fs : gmap string node) :
  fs !! jf = Some (RegularFile dtext) ->
  fs !! sf = Some (RegularFile stext) ->
  json_loads dtext = inr data ->
  json_loads stext = inr schema ->
  validate data schema = inl e ->
  is_ValidationError e = false ->
  output (run (prog :: jf :: sf :: extra) fs) = ""
  /\ prints (trace (run (prog :: jf :: sf :: extra) fs)) = []
  /\ traceback (run (prog :: jf :: sf :: extra) fs) = Some e.
Proof.
  intros Hjf Hsf Hd Hs Hv He.
  rewrite run_two_paths, Hjf, Hsf. cbn [read_node].
  rewrite Hd, Hs, Hv, He. repeat split.
Qed.

(** ** What an outcome tells about the run *)

(** Only a regular file with decodable content reads as text. *)
Lemma read_node_text (n : option node) (text : string) :
  read_node n = inr text <-> n = Some (RegularFile text).
Proof.
  split.
  - destruct n as [[t | | |] |]; cbn [read_node]; intros H;
      try discriminate H. injection H as ->. reflexivity.
  - intros ->. reflexivity.
Qed.

(** Case analysis on a run: the guard, then each call that may raise. *)
Ltac run_cases argv fs :=
  let Hlt := fresh "Hlt" in
  let Hge := fresh "Hge" in
  destruct (Nat.lt_ge_cases (length argv) 3) as [Hlt | Hge];
  [ rewrite (run_usage argv fs Hlt)
  | let prog := fresh "prog" in
    let jf := fresh "jf" in
    let sf := fresh "sf" in
    let extra := fresh "extra" in
    destruct argv as [| prog [| jf [| sf extra]]];
    [ simpl in Hge; lia | simpl in Hge; lia | simpl in Hge; lia |];
    rewrite (run_two_paths prog jf sf extra fs);
    let Ejf := fresh "Ejf" in
    let Ed := fresh "Ed" in
    let Esf := fresh "Esf" in
    let Es := fresh "Es" in
    let Ev := fresh "Ev" in
    let Ee := fresh "Ee" in
    destruct (read_node (fs !! jf)) as [? | ?dtext] eqn:Ejf;
    [| destruct (json_loads dtext) as [? | ?data] eqn:Ed;
       [| destruct (read_node (fs !! sf)) as [? | ?stext] eqn:Esf;
          [| destruct (json_loads stext) as [? | ?schema] eqn:Es;
             [| destruct (validate data schema) as [?e | []] eqn:Ev;
                [ destruct (is_ValidationError e) eqn:Ee |]]]]] ].

(** X1. Status 0 is never given without a verdict: it means that there were
    two paths, that both files were read and decoded, and that [validate]
    accepted the document; the line [Validation OK] was printed. *)
Theorem exit_0_only_when_valid (argv : list string) (fs : gmap string node) :
  exit_status (run argv fs) = 0%Z ->
  exists prog jf sf extra dtext stext data schema,
    argv = prog :: jf :: sf :: extra
    /\ fs !! jf = Some (RegularFile dtext)
    /\ fs !! sf = Some (RegularFile stext)
    /\ json_loads dtext = inr data
    /\ json_loads stext = inr schema
    /\ validate data schema = inr tt
    /\ output (run argv fs) = "Validation OK" +:+ nl.
Proof.
  run_cases argv fs; cbn [exit_status]; intros H; try discriminate H.
  apply read_node_text in Ejf, Esf.
  exists prog, jf, sf, extra, dtext, stext, data, schema.
  repeat split; assumption.
Qed.

(** X2. A run that ends with status 1 and no traceback reports a real
    verdict: both files were read and decoded, [validate] raised a
    [ValidationError], and standard output carries its message. *)
Theorem failure_report_only_when_invalid (argv : list string)
    (fs : gmap string node) :
  exit_status (run argv fs) = 1%Z ->
  traceback (run argv fs) = None ->
  exists prog jf sf extra dtext stext data schema e,
    argv = prog :: jf :: sf :: extra
    /\ fs !! jf = Some (RegularFile dtext)
    /\ fs !! sf = Some (RegularFile stext)
    /\ json_loads dtext = inr data
    /\ json_loads stext = inr schema
    /\ validate data schema = inl e
    /\ is_ValidationError e = true
    /\ output (run argv fs) = "Validation FAILED: " +:+ message e +:+ nl.
Proof.
  run_cases argv fs; cbn [exit_status traceback]; intros H1 H2;
    try discriminate H1; try discriminate H2.
  apply read_node_text in Ejf, Esf.
  exists prog, jf, sf, extra, dtext, stext, data, schema, e.
  repeat split; assumption.
Qed.

(** X3. The exit status 0 and the line [Validation OK] go together: the
    status is 0 exactly when standard output is that line. *)
Theorem exit_0_iff_ok_line (argv : list string) (fs : gmap string node) :
  exit_status (run argv fs) = 0%Z
  <-> output (run argv fs) = "Validation OK" +:+ nl.
Proof.
  run_cases argv fs; cbn [exit_status output]; split; intros H;
    try reflexivity; try discriminate H.
Qed.

(** X4. Status 2 is reserved for misuse: it is the status exactly when fewer
    than two arguments were given, and exactly when standard output is
    the usage line. *)
Theorem exit_2_iff_too_few_arguments (argv : list string)
    (fs : gmap string node) :
  (exit_status (run argv fs) = 2%Z <-> length argv < 3)
  /\ (exit_status (run argv fs) = 2%Z
      <-> output (run argv fs) = usage +:+ nl).
Proof.
  run_cases argv fs; cbn [exit_status output]; (split; split; intros H);
    try reflexivity; try assumption; try discriminate H;
    try (simpl in Hge, H; lia).
Qed.

(** X5. Standard output is empty exactly when the run ended in an unhandled
    exception; such a run had two paths and ends with status 1. *)
Theorem silent_iff_unhandled (argv : list string) (fs : gmap string node) :
  (output (run argv fs) = "" <-> is_Some (traceback (run argv fs)))
  /\ (is_Some (traceback (run argv fs)) ->
      exit_status (run argv fs) = 1%Z /\ 3 <= length argv).
Proof.
  run_cases argv fs; cbn [exit_status output traceback length];
    (split; [split; intros H | intros H]);
    try discriminate H; try (contradict H; apply is_Some_None);
    try reflexivity; try (eexists; reflexivity);
    try (split; [reflexivity | lia]).
Qed.

(** ** Which error surfaces *)

(** X6. A failure on the document side is the one reported, whatever the
    schema path names: the error of the read, or else the error of the
    decoding, is the unhandled exception. *)
Theorem document_error_reported (prog jf sf : string) (extra : list string)
    (fs : gmap string node) (e : error) :
  read_node (fs !! jf) = inl e
  \/ (exists dtext, fs !! jf = Some (RegularFile dtext)
                    /\ json_loads dtext = inl e) ->
  traceback (run (prog :: jf :: sf :: extra) fs) = Some e
  /\ reads (trace (run (prog :: jf :: sf :: extra) fs)) = [jf].
Proof.
  intros [Hread | (dtext & Hjf & Hd)]; rewrite run_two_paths.
  - rewrite Hread. split; reflexivity.
  - rewrite Hjf. cbn [read_node]. rewrite Hd. split; reflexivity.
Qed.

(** X7. With a document that reads and decodes, a schema path that cannot be
    read, or whose text does not decode, ends the run before [validate]
    is called: that error is the unhandled exception, nothing is printed
    and the status is 1. *)
Theorem schema_error_reported (prog jf sf dtext : string)
    (extra : list string) (data : json) (fs : gmap string node) (e : error) :
  fs !! jf = Some (RegularFile dtext) ->
  json_loads dtext = inr data ->
  read_node (fs !! sf) = inl e
  \/ (exists stext, fs !! sf = Some (RegularFile stext)
                    /\ json_loads stext = inl e) ->
  traceback (run (prog :: jf :: sf :: extra) fs) = Some e
  /\ output (run (prog :: jf :: sf :: extra) fs) = ""
  /\ exit_status (run (prog :: jf :: sf :: extra) fs) = 1%Z
  /\ reads (trace (run (prog :: jf :: sf :: extra) fs)) = [jf; sf]
  /\ ~ In Validate (trace (run (prog :: jf :: sf :: extra) fs)).
Proof.
  intros Hjf Hd [Hread | (stext & Hsf & Hs)];
    rewrite run_two_paths, Hjf; cbn [read_node]; rewrite Hd.
  - rewrite Hread. repeat split. cbn. intuition discriminate.
  - rewrite Hsf. cbn [read_node]. rewrite Hs. repeat split.
    cbn. intuition discriminate.
Qed.

(** X8. [validate] is called exactly on the runs where both files were read
    and decoded, and then once. *)
Theorem validate_called_iff_loaded (prog jf sf : string)
    (extra : list string) (fs : gmap string node) :
  (In Validate (trace (run (prog :: jf :: sf :: extra) fs))
   <-> exists dtext stext data schema,
         fs !! jf = Some (RegularFile dtext)
         /\ fs !! sf = Some (RegularFile stext)
         /\ json_loads dtext = inr data
         /\ json_loads stext = inr schema)
  /\ validations (trace (run (prog :: jf :: sf :: extra) fs)) <= 1.
Proof.
  split; [split |].
  - rewrite run_two_paths.
    destruct (read_node (fs !! jf)) as [? | dtext] eqn:Ejf;
      [cbn; intuition discriminate |].
    destruct (json_loads dtext) as [? | data] eqn:Ed;
      [cbn; intuition discriminate |].
    destruct (read_node (fs !! sf)) as [? | stext] eqn:Esf;
      [cbn; intuition discriminate |].
    destruct (json_loads stext) as [? | schema] eqn:Es;
      [cbn; intuition discriminate |].
    intros _. apply read_node_text in Ejf, Esf.
    exists dtext, stext, data, schema. repeat split; assumption.
  - intros (dtext & stext & data & schema & Hjf & Hsf & Hd & Hs).
    rewrite run_two_paths, Hjf, Hsf. cbn [read_node]. rewrite Hd, Hs.
    destruct (validate data schema) as [e | []];
      [destruct (is_ValidationError e) |]; cbn; auto 10.
  - rewrite run_two_paths.
    repeat match goal with
           | |- context [match ?x with _ => _ end] => destruct x
           end; cbn; lia.
Qed.

(** ** What the run does not depend on *)

(** X9. Only the nodes at the two paths matter: on two file maps that agree
    there, the runs print the same text, exit with the same status and
    make the same calls. *)
Theorem other_files_irrelevant (prog jf sf : string) (extra : list string)
    (fs1 fs2 : gmap string node) :
  fs1 !! jf = fs2 !! jf ->
  fs1 !! sf = fs2 !! sf ->
  output (run (prog :: jf :: sf :: extra) fs1)
  = output (run (prog :: jf :: sf :: extra) fs2)
  /\ exit_status (run (prog :: jf :: sf :: extra) fs1)
     = exit_status (run (prog :: jf :: sf :: extra) fs2)
  /\ traceback (run (prog :: jf :: sf :: extra) fs1)
     = traceback (run (prog :: jf :: sf :: extra) fs2)
  /\ trace (run (prog :: jf :: sf :: extra) fs1)
     = trace (run (prog :: jf :: sf :: extra) fs2).
Proof.
  intros Hjf Hsf. rewrite !run_two_paths, Hjf, Hsf.
  repeat match goal with
         | |- context [match ?x with _ => _ end] => destruct x
         end; repeat split.
Qed.

(** X10. The name the script was started under ([sys.argv[0]]) changes
    nothing, the usage line included. *)
Theorem program_name_irrelevant (prog prog' : string) (args : list string)
    (fs : gmap string node) :
  run (prog :: args) fs = run (prog' :: args) fs.
Proof.
  destruct args as [| jf [| sf extra]].
  - rewrite !run_usage by (simpl; lia). reflexivity.
  - rewrite !run_usage by (simpl; lia). reflexivity.
  - rewrite !run_two_paths. reflexivity.
Qed.

End Properties.

(** * Concrete runs *)

(** The three outcomes the script reports, on the stand-in libraries. *)
Example run_ok :
  Standin.run ["validate_local.py"; "doc.json"; "any.json"] Standin.disk
  = Process 0 ("Validation OK" +:+ nl) None
      [ReadText "doc.json"; Loads "[1]"; ReadText "any.json"; Loads "{}";
       Validate; Print ("Validation OK" +:+ nl)] Standin.disk.
Proof. vm_compute. reflexivity. Qed.

Example run_failed :
  Standin.run ["validate_local.py"; "doc.json"; "strict.json"] Standin.disk
  = Process 1 ("Validation FAILED: [1] is not valid under the schema" +:+ nl)
      None
      [ReadText "doc.json"; Loads "[1]"; ReadText "strict.json"; Loads "[2]";
       Validate;
       Print ("Validation FAILED: [1] is not valid under the schema" +:+ nl)]
      Standin.disk.
Proof. vm_compute. reflexivity. Qed.

Example run_no_arguments :
  Standin.run ["validate_local.py"] Standin.disk
  = Process 2 (usage +:+ nl) None [Print (usage +:+ nl)] Standin.disk.
Proof. vm_compute. reflexivity. Qed.

(** A document path that names nothing: the traceback of the
    [FileNotFoundError], nothing on standard output, status 1. *)
Example run_missing :
  Standin.run ["validate_local.py"; "nowhere.json"; "any.json"] Standin.disk
  = Process 1 "" (Some (Err FileNotFoundError "No such file or directory"))
      [ReadText "nowhere.json"] Standin.disk.
Proof. vm_compute. reflexivity. Qed.

(** The same path for document and schema is read twice. *)
Example run_same_path :
  trace (Standin.run ["validate_local.py"; "doc.json"; "doc.json"] Standin.disk)
  = [ReadText "doc.json"; Loads "[1]"; ReadText "doc.json"; Loads "[1]";
     Validate; Print ("Validation OK" +:+ nl)].
Proof. vm_compute. reflexivity. Qed.

(** The scanner on a few texts: what RFC 8259 takes, and what
    [json.loads] takes beyond it. *)
Example json_texts :
  map (fun text => (Json.rfc8259 text, Json.decodes true text))
    ["[1, -2.5e3, true, false, null]"; " { } "; "[[], [{}]]";
     "[1,]"; "01"; "1."; "nul"; "[1] [2]"; "";
     "NaN"; "[Infinity, -Infinity]"]
  = [(true, true); (true, true); (true, true);
     (false, false); (false, false); (false, false); (false, false);
     (false, false); (false, false);
     (false, true); (false, true)].
Proof. vm_compute. reflexivity. Qed.

(** An object with a string member, escapes included. *)
Example json_object_text :
  let q := String Json.dquote "" in
  Json.rfc8259 ("{" +:+ q +:+ "name" +:+ q +:+ ": " +:+ q +:+ "x\n\u00e9" +:+ q +:+ "}")
  = true
  /\ Json.rfc8259 ("{" +:+ q +:+ "name" +:+ q +:+ ": 1,}") = false
  /\ Json.rfc8259 ("[" +:+ q +:+ "\x" +:+ q +:+ "]") = false.
Proof. vm_compute. repeat split. Qed.

(** ** The theorems at work *)

Lemma validation_ok_exit_0_witness :
  output (Standin.run ["validate_local.py"; "doc.json"; "same.json"] Standin.disk)
  = "Validation OK" +:+ nl
  /\ prints (trace (Standin.run ["validate_local.py"; "doc.json"; "same.json"]
                      Standin.disk))
     = ["Validation OK" +:+ nl]
  /\ exit_status (Standin.run ["validate_local.py"; "doc.json"; "same.json"]
                    Standin.disk) = 0%Z.
Proof.
  apply (validation_ok_exit_0 Standin.json Standin.json_loads Standin.validate
           "validate_local.py" "doc.json" "same.json" "[1]" "[1]" "[1]" "[1]"
           Standin.disk); vm_compute; reflexivity.
Defined.

Lemma validation_failed_exit_1_witness :
  output (Standin.run ["validate_local.py"; "doc.json"; "strict.json"] Standin.disk)
  = "Validation FAILED: [1] is not valid under the schema" +:+ nl
  /\ exit_status (Standin.run ["validate_local.py"; "doc.json"; "strict.json"]
                    Standin.disk) = 1%Z.
Proof.
  destruct (validation_failed_exit_1 Standin.json Standin.json_loads
              Standin.validate "validate_local.py" "doc.json" "strict.json"
              "[1]" "[2]" "[1] is not valid under the schema" "[1]" "[2]"
              Standin.disk) as (Hout & _ & Hstatus & _);
    try (vm_compute; reflexivity).
  split; [exact Hout | exact Hstatus].
Defined.

Lemma too_few_arguments_usage_witness :
  length ["validate_local.py"; "doc.json"] < 3
  /\ output (Standin.run ["validate_local.py"; "doc.json"] Standin.disk)
     = usage +:+ nl
  /\ exit_status (Standin.run ["validate_local.py"; "doc.json"] Standin.disk)
     = 2%Z
  /\ reads (trace (Standin.run ["validate_local.py"; "doc.json"] Standin.disk))
     = [].
Proof.
  assert (Hlen : length ["validate_local.py"; "doc.json"] < 3) by (simpl; lia).
  destruct (too_few_arguments_usage Standin.json Standin.json_loads
              Standin.validate ["validate_local.py"; "doc.json"] Standin.disk
              Hlen) as (Hout & Hstatus & _ & Hreads).
  repeat split; assumption.
Defined.

(** C4, as worded, fails: the document path names nothing, and the
    process ends with status 1. *)
Lemma missing_document_exits_1 :
  readable_file Standin.disk "nowhere.json" = false
  /\ ~ (output (Standin.run ["validate_local.py"; "nowhere.json"; "any.json"]
                  Standin.disk) <> "Validation OK" +:+ nl
        /\ exit_status (Standin.run ["validate_local.py"; "nowhere.json"; "any.json"]
                          Standin.disk) <> 0%Z
        /\ exit_status (Standin.run ["validate_local.py"; "nowhere.json"; "any.json"]
                          Standin.disk) <> 1%Z).
Proof.
  split; [vm_compute; reflexivity |].
  intros (_ & _ & Hnot1). apply Hnot1. vm_compute. reflexivity.
Qed.

Lemma missing_document_unhandled_witness :
  readable_file Standin.disk "nowhere.json" = false
  /\ output (Standin.run ["validate_local.py"; "nowhere.json"; "any.json"]
               Standin.disk) = ""
  /\ exit_status (Standin.run ["validate_local.py"; "nowhere.json"; "any.json"]
                    Standin.disk) = 1%Z.
Proof.
  assert (Hjf : readable_file Standin.disk "nowhere.json" = false)
    by (vm_compute; reflexivity).
  destruct (missing_document_unhandled Standin.json Standin.json_loads
              Standin.validate "validate_local.py" "nowhere.json" "any.json"
              Standin.disk Hjf) as (Hout & _ & Hstatus & _).
  repeat split; assumption.
Defined.

Lemma malformed_json_unhandled_witness :
  output (Standin.run ["validate_local.py"; "doc.json"; "empty.json"] Standin.disk)
  = ""
  /\ exit_status (Standin.run ["validate_local.py"; "doc.json"; "empty.json"]
                    Standin.disk) <> 0%Z.
Proof.
  destruct (malformed_json_unhandled Standin.json Standin.json_loads
              Standin.validate "validate_local.py" "doc.json" "empty.json" []
              Standin.disk) as (Hout & _ & _ & Hstatus).
  - right. exists "", (Err JSONDecodeError "Expecting value").
    split; vm_compute; reflexivity.
  - split; [exact Hout | exact Hstatus].
Defined.

(** C5, as worded, fails: [NaN] is not a JSON text, [json.loads] decodes
    it all the same, and under the schema [{}] the run reports success. *)
Lemma nan_document_validation_ok :
  Json.rfc8259 "NaN" = false
  /\ output (python3 string Json.json_loads Standin.validate
               ["validate_local.py"; "nan.json"; "any.json"]
               (<["nan.json" := RegularFile "NaN"]> Standin.disk))
     = "Validation OK" +:+ nl
  /\ exit_status (python3 string Json.json_loads Standin.validate
                    ["validate_local.py"; "nan.json"; "any.json"]
                    (<["nan.json" := RegularFile "NaN"]> Standin.disk)) = 0%Z
  /\ ~ (is_Some (traceback (python3 string Json.json_loads Standin.validate
                              ["validate_local.py"; "nan.json"; "any.json"]
                              (<["nan.json" := RegularFile "NaN"]> Standin.disk)))
        /\ output (python3 string Json.json_loads Standin.validate
                     ["validate_local.py"; "nan.json"; "any.json"]
                     (<["nan.json" := RegularFile "NaN"]> Standin.disk))
           <> "Validation OK" +:+ nl).
Proof.
  split; [vm_compute; reflexivity |].
  split; [vm_compute; reflexivity |].
  split; [vm_compute; reflexivity |].
  intros [_ Hnot]. apply Hnot. vm_compute. reflexivity.
Qed.


Lemma other_error_propagates_witness :
  output (Standin.run ["validate_local.py"; "doc.json"; "bad-schema.json"]
            Standin.disk) = ""
  /\ traceback (Standin.run ["validate_local.py"; "doc.json"; "bad-schema.json"]
                  Standin.disk)
     = Some (Err SchemaError "[] is not of type 'object', 'boolean'").
Proof.
  destruct (other_error_propagates Standin.json Standin.json_loads
              Standin.validate "validate_local.py" "doc.json" "bad-schema.json"
              "[1]" "[]" "[1]" "[]"
              (Err SchemaError "[] is not of type 'object', 'boolean'") []
              Standin.disk) as (Hout & _ & Htb);
    try (vm_compute; reflexivity).
  split; [exact Hout | exact Htb].
Defined.

(** ** The further theorems at work *)

Lemma exit_0_only_when_valid_witness :
  exit_status (Standin.run ["validate_local.py"; "doc.json"; "any.json"]
                 Standin.disk) = 0%Z
  /\ output (Standin.run ["validate_local.py"; "doc.json"; "any.json"]
               Standin.disk) = "Validation OK" +:+ nl.
Proof.
  assert (H0 : exit_status (Standin.run
                              ["validate_local.py"; "doc.json"; "any.json"]
                              Standin.disk) = 0%Z)
    by (vm_compute; reflexivity).
  destruct (exit_0_only_when_valid Standin.json Standin.json_loads
              Standin.validate ["validate_local.py"; "doc.json"; "any.json"]
              Standin.disk H0)
    as (prog & jf & sf & extra & dtext & stext & data & schema & Hrun).
  split; [exact H0 | apply Hrun].
Defined.

Lemma failure_report_only_when_invalid_witness :
  exit_status (Standin.run ["validate_local.py"; "doc.json"; "strict.json"]
                 Standin.disk) = 1%Z
  /\ traceback (Standin.run ["validate_local.py"; "doc.json"; "strict.json"]
                  Standin.disk) = None
  /\ exists e,
       is_ValidationError e = true
       /\ output (Standin.run ["validate_local.py"; "doc.json"; "strict.json"]
                    Standin.disk)
          = "Validation FAILED: " +:+ message e +:+ nl.
Proof.
  assert (H1 : exit_status (Standin.run
                              ["validate_local.py"; "doc.json"; "strict.json"]
                              Standin.disk) = 1%Z)
    by (vm_compute; reflexivity).
  assert (Hnone : traceback (Standin.run
                               ["validate_local.py"; "doc.json"; "strict.json"]
                               Standin.disk) = None)
    by (vm_compute; reflexivity).
  destruct (failure_report_only_when_invalid Standin.json Standin.json_loads
              Standin.validate ["validate_local.py"; "doc.json"; "strict.json"]
              Standin.disk H1 Hnone)
    as (prog & jf & sf & extra & dtext & stext & data & schema & e & Hrun).
  split; [exact H1 | split; [exact Hnone |]].
  exists e. split; apply Hrun.
Defined.

(** A document that is not UTF-8, next to a schema path that names
    nothing: the decoding error of the document is the one reported. *)
Lemma document_error_reported_witness :
  traceback (Standin.run ["validate_local.py"; "latin1.json"; "nowhere.json"]
               (<["latin1.json" := Undecodable]> Standin.disk))
  = Some (Err UnicodeDecodeError "invalid start byte")
  /\ reads (trace (Standin.run
                     ["validate_local.py"; "latin1.json"; "nowhere.json"]
                     (<["latin1.json" := Undecodable]> Standin.disk)))
     = ["latin1.json"].
Proof.
  apply (document_error_reported Standin.json Standin.json_loads
           Standin.validate "validate_local.py" "latin1.json" "nowhere.json"
           [] (<["latin1.json" := Undecodable]> Standin.disk)
           (Err UnicodeDecodeError "invalid start byte")).
  left. vm_compute. reflexivity.
Defined.

Lemma schema_error_reported_witness :
  traceback (Standin.run ["validate_local.py"; "doc.json"; "nowhere.json"]
               Standin.disk)
  = Some (Err FileNotFoundError "No such file or directory")
  /\ exit_status (Standin.run ["validate_local.py"; "doc.json"; "nowhere.json"]
                    Standin.disk) = 1%Z
  /\ reads (trace (Standin.run ["validate_local.py"; "doc.json"; "nowhere.json"]
                     Standin.disk))
     = ["doc.json"; "nowhere.json"].
Proof.
  destruct (schema_error_reported Standin.json Standin.json_loads
              Standin.validate "validate_local.py" "doc.json" "nowhere.json"
              "[1]" [] "[1]" Standin.disk
              (Err FileNotFoundError "No such file or directory"))
    as (Htb & _ & Hstatus & Hreads & _).
  - vm_compute. reflexivity.
  - vm_compute. reflexivity.
  - left. vm_compute. reflexivity.
  - repeat split; assumption.
Defined.

(** Replacing a file the run is not pointed at changes nothing seen. *)
Lemma other_files_irrelevant_witness :
  output (Standin.run ["validate_local.py"; "doc.json"; "strict.json"]
            Standin.disk)
  = output (Standin.run ["validate_local.py"; "doc.json"; "strict.json"]
              (<["any.json" := Directory]> Standin.disk))
  /\ exit_status (Standin.run ["validate_local.py"; "doc.json"; "strict.json"]
                    Standin.disk)
     = exit_status (Standin.run ["validate_local.py"; "doc.json"; "strict.json"]
                      (<["any.json" := Directory]> Standin.disk)).
Proof.
  destruct (other_files_irrelevant Standin.json Standin.json_loads
              Standin.validate "validate_local.py" "doc.json" "strict.json" []
              Standin.disk (<["any.json" := Directory]> Standin.disk))
    as (Hout & Hstatus & _).
  - vm_compute. reflexivity.
  - vm_compute. reflexivity.
  - split; assumption.
Defined.
